(** * SENSEI [VTKUtils.h]: array access, traversal and mesh classification

    A shallow embedding of [sensei::VTKUtils] (src/sensei/VTKUtils.h) and of
    the operations it declares, with the properties the specification states
    about them. *)

From Stdlib Require Import ZArith Sorted.
From stdpp Require Import gmap strings list.

Open Scope Z_scope.

(** ** Memory and typed array handles *)

(** Raw memory: allocations are numbered, and each one is a run of elements
    (an element is kept as the integer holding its bits). *)
Abbreviation heap := (gmap nat (list Z)).

(** A [VTK_TT*]: null, or an allocation and an element offset into it. *)
Inductive pointer : Type :=
  | nullptr
  | Ptr (block : nat) (offset : nat).

#[global] Instance pointer_eq_dec : EqDecision pointer.
Proof. solve_decision. Defined.

(** [p[i]]: nothing is read through the null pointer or out of bounds. *)
Definition load (h : heap) (p : pointer) (i : nat) : option Z :=
  match p with
  | nullptr => None
  | Ptr b o => h !! b ≫= fun buf => buf !! (o + i)%nat
  end.

(** [p[0], ..., p[n-1]]. *)
Definition load_range (h : heap) (p : pointer) (n : nat) : list (option Z) :=
  load h p <$> seq 0 n.

(** [p + k]. *)
Definition advance (p : pointer) (k : nat) : pointer :=
  match p with
  | nullptr => nullptr
  | Ptr b o => Ptr b (o + k)
  end.

(** The element types a template argument [VTK_TT] can be: the scalar types
    VTK arrays are instantiated at. *)
Inductive VTK_TT : Type :=
  | TT_double | TT_float
  | TT_char | TT_signed_char | TT_unsigned_char
  | TT_short | TT_unsigned_short
  | TT_int | TT_unsigned_int
  | TT_long | TT_unsigned_long
  | TT_long_long | TT_unsigned_long_long.

#[global] Instance VTK_TT_eq_dec : EqDecision VTK_TT.
Proof. solve_decision. Defined.

(** Modelled from the spec: the storage of [vtkAOSDataArrayTemplate] and
    [vtkSOADataArrayTemplate] (VTK classes, not part of this repository).
    Interleaved: all components of all elements in one buffer, ordered
    element-major. Separated: one buffer per component, each of length the
    element count. Any other [vtkDataArray] subclass has neither. *)
Inductive Layout : Type :=
  | Interleaved (buffer : pointer)
  | Separated (buffers : list pointer)
  | Unrecognized.

(** Modelled from the spec: a [vtkDataArray] object (VTK class): its run-time
    class, its element type, its shape and its storage. A separated array
    has one buffer per component, so its buffers give its number of
    components; [Components] is the number of components of any other
    array. *)
Record vtkDataArray : Type := {
  ClassName : string;
  ValueType : VTK_TT;
  Components : nat;
  NumberOfTuples : nat;
  Storage : Layout
}.

(** [GetNumberOfComponents()]. *)
Definition NumberOfComponents (a : vtkDataArray) : nat :=
  match Storage a with
  | Separated buffers => length buffers
  | _ => Components a
  end.

(** A [vtkDataArray*]: [None] is the null handle. *)
Abbreviation handle := (option vtkDataArray).

(** Modelled from the spec: [vtkAOSDataArrayTemplate<T>::GetPointer(id)]
    (VTK), the address of value [id] of the one interleaved buffer. *)
Definition AOS_GetPointer (buffer : pointer) (id : nat) : pointer :=
  advance buffer id.

(** What [vtkSOADataArrayTemplate<T>::GetPointer(id)] (VTK) returns for a
    separated array that has not exactly one component. Its body is not part
    of this repository and the spec does not say what it returns, so it is a
    parameter: what is proved holds whatever it is. *)
Class SeparatedAccess : Type :=
  SOA_GetPointer_multi : list pointer -> nat -> pointer.

(** Modelled from the spec: [vtkSOADataArrayTemplate<T>::GetPointer(id)]
    (VTK). For a single-component array, the address of value [id] of its one
    buffer; for any other number of components, the parameter. *)
Definition SOA_GetPointer `{!SeparatedAccess} (buffers : list pointer)
    (id : nat) : pointer :=
  match buffers with
  | [b] => advance b id
  | _ => SOA_GetPointer_multi buffers id
  end.

(** Modelled from the spec: the logical element [(tuple, comp)] of an array,
    as [GetTypedComponent] of the two VTK classes finds it. *)
Definition GetTypedComponent (h : heap) (a : vtkDataArray) (tuple comp : nat)
  : option Z :=
  match Storage a with
  | Interleaved buffer => load h buffer (tuple * NumberOfComponents a + comp)
  | Separated buffers => buffers !! comp ≫= fun b => load h b tuple
  | Unrecognized => None
  end.

(** The logical contents of an array in element-major order. *)
Definition Contents (h : heap) (a : vtkDataArray) : list (option Z) :=
  t ← seq 0 (NumberOfTuples a);
  c ← seq 0 (NumberOfComponents a);
  [GetTypedComponent h a t c].

(** ** Executions: undefined behaviour and the error stream *)

(** A C++ evaluation either returns or has undefined behaviour (here: a
    member call on a null object). *)
Inductive exec (A : Type) : Type :=
  | Returns (a : A)
  | UndefinedBehaviour.
Arguments Returns {A} a.
Arguments UndefinedBehaviour {A}.

Definition exec_bind {A B} (m : exec A) (k : A -> exec B) : exec B :=
  match m with
  | Returns a => k a
  | UndefinedBehaviour => UndefinedBehaviour
  end.

Notation "x <-! m ; k" := (exec_bind m (fun x => k))
  (at level 100, m at next level, right associativity, only parsing).

(** [da->GetClassName()]: a member call, undefined on the null handle. *)
Definition GetClassName (da : handle) : exec string :=
  match da with
  | Some a => Returns (ClassName a)
  | None => UndefinedBehaviour
  end.

(** [dynamic_cast<vtkAOSDataArrayTemplate<VTK_TT>*>(da)]: the null handle
    casts to null; an object casts when it is an interleaved array of
    [VTK_TT]. The result carries what [GetPointer] reads of it. *)
Definition dynamic_cast_AOS (T : VTK_TT) (da : handle) : option pointer :=
  match da with
  | None => None
  | Some a =>
      match Storage a with
      | Interleaved buffer =>
          if decide (ValueType a = T) then Some buffer else None
      | _ => None
      end
  end.

(** [dynamic_cast<vtkSOADataArrayTemplate<VTK_TT>*>(da)]. *)
Definition dynamic_cast_SOA (T : VTK_TT) (da : handle)
  : option (list pointer) :=
  match da with
  | None => None
  | Some a =>
      match Storage a with
      | Separated buffers =>
          if decide (ValueType a = T) then Some buffers else None
      | _ => None
      end
  end.

(** What [SENSEI_ERROR] (Error.h) is given to print by [GetPointer]. *)
Definition InvalidArrayMessage (name : string) : string :=
  "Invalid vtkDataArray "%string +:+ name.

(** [GetPointer<VTK_TT>(da)] (VTKUtils.h:39-60): the pointer returned and the
    messages sent to [SENSEI_ERROR]. *)
Definition GetPointer `{!SeparatedAccess} (T : VTK_TT) (da : handle)
  : exec (pointer * list string) :=
  match dynamic_cast_AOS T da with
  | Some aosDa => Returns (AOS_GetPointer aosDa 0, [])
  | None =>
      match dynamic_cast_SOA T da with
      | Some soaDa => Returns (SOA_GetPointer soaDa 0, [])
      | None =>
          name <-! (if da is Some _ then GetClassName da
                    else Returns "nullptr"%string);
          Returns (nullptr, [InvalidArrayMessage name])
      end
  end.

(** ** Associations *)

(** The association of an array with the mesh: per point, per cell, or with
    no geometric location. *)
Inductive Association : Type :=
  | point
  | cell
  | field.

#[global] Instance Association_eq_dec : EqDecision Association.
Proof. solve_decision. Defined.

#[global] Instance Association_countable : Countable Association.
Proof.
  refine (inj_countable'
    (fun a => match a with point => 0%nat | cell => 1%nat | field => 2%nat end)
    (fun n => match n with O => point | S O => cell | _ => field end) _).
  by intros [].
Defined.

(** Modelled from the spec: [GetAssociation] (VTKUtils.h:71-73, declared
    only; the spec's ParseAssociation). One of the three case-sensitive
    spellings gives its association; any other string gives the
    distinguished no-association result [None]. *)
Definition GetAssociation (assocStr : string) : option Association :=
  if decide (assocStr = "point"%string) then Some point
  else if decide (assocStr = "cell"%string) then Some cell
  else if decide (assocStr = "field"%string) then Some field
  else None.

(** Modelled from the spec: [GetAttributesName] (VTKUtils.h:75-76, declared
    only; the spec's AssociationName), total over the three values. *)
Definition GetAttributesName (association : Association) : string :=
  match association with
  | point => "point"
  | cell => "cell"
  | field => "field"
  end.

(** ** Mesh metadata and the classification predicates *)

(** The VTK data object type codes (vtkType.h, not part of this repository)
    the predicates compare with. *)
Class VTKTypeCodes : Type := {
  VTK_POLY_DATA : Z;
  VTK_STRUCTURED_GRID : Z;
  VTK_RECTILINEAR_GRID : Z;
  VTK_UNSTRUCTURED_GRID : Z;
  VTK_IMAGE_DATA : Z;
  VTK_UNIFORM_GRID : Z;
  VTK_NON_OVERLAPPING_AMR : Z;
  VTK_OVERLAPPING_AMR : Z
}.

(** A bounding extent: low and high corner. *)
Record Extent : Type := {
  Lo : Z * Z * Z;
  Hi : Z * Z * Z
}.

#[global] Instance Extent_eq_dec : EqDecision Extent.
Proof. solve_decision. Defined.

(** [MeshMetadata] (MeshMetadata.h, not part of the sources at hand). The
    predicates of VTKUtils.h read [MeshType] and [BlockType]; the other
    fields are modelled from the spec: total block count, owning rank and
    extent per block index, combined bounds, the array tuples keyed by
    (name, association) with their element kind and component count, and
    the ghost layer counts when any rank reported them. *)
Record MeshMetadata : Type := {
  MeshType : Z;
  BlockType : Z;
  NumBlocks : nat;
  BlockOwner : gmap nat nat;
  BlockExtents : gmap nat Extent;
  Bounds : option Extent;
  Arrays : gmap (string * Association) (VTK_TT * nat);
  GhostLayers : option (Z * Z)
}.

Section Predicates.
Context `{!VTKTypeCodes}.

(** VTKUtils.h:121-125. *)
Definition AMR (md : MeshMetadata) : bool :=
  (MeshType md =? VTK_OVERLAPPING_AMR) ||
  (MeshType md =? VTK_NON_OVERLAPPING_AMR).

(** VTKUtils.h:128-132. *)
Definition Structured (md : MeshMetadata) : bool :=
  (BlockType md =? VTK_STRUCTURED_GRID) ||
  (MeshType md =? VTK_STRUCTURED_GRID).

(** VTKUtils.h:135-138. *)
Definition Polydata (md : MeshMetadata) : bool :=
  (BlockType md =? VTK_POLY_DATA) || (MeshType md =? VTK_POLY_DATA).

(** VTKUtils.h:141-145. *)
Definition Unstructured (md : MeshMetadata) : bool :=
  (BlockType md =? VTK_UNSTRUCTURED_GRID) ||
  (MeshType md =? VTK_UNSTRUCTURED_GRID).

(** VTKUtils.h:148-152. *)
Definition StretchedCartesian (md : MeshMetadata) : bool :=
  (BlockType md =? VTK_RECTILINEAR_GRID) ||
  (MeshType md =? VTK_RECTILINEAR_GRID).

(** VTKUtils.h:155-159. *)
Definition UniformCartesian (md : MeshMetadata) : bool :=
  (BlockType md =? VTK_IMAGE_DATA) || (MeshType md =? VTK_IMAGE_DATA)
  || (BlockType md =? VTK_UNIFORM_GRID) || (MeshType md =? VTK_UNIFORM_GRID).

(** VTKUtils.h:162-165. *)
Definition LogicallyCartesian (md : MeshMetadata) : bool :=
  Structured md || UniformCartesian md || StretchedCartesian md.
End Predicates.

(** ** Traversal of composite data *)

(** Modelled from the spec: a [vtkDataObject] (VTK class) as [Apply] walks
    it, over leaf datasets [D]: a null block (a position this rank holds no
    data for), a leaf dataset, or a composite of blocks, which may be
    composite in turn (multi-block of multi-block, the levels of an AMR
    hierarchy). *)
#[warnings="-register-all"]
Inductive vtkDataObject (D : Type) : Type :=
  | NullBlock
  | DataSet (ds : D)
  | CompositeDataSet (blocks : list (vtkDataObject D)).
Arguments NullBlock {D}.
Arguments DataSet {D} ds.
Arguments CompositeDataSet {D} blocks.

(** The three-way signal of a callback's return code (VTKUtils.h:83, 92):
    0 for success, > 0 to stop without error, < 0 to stop with error. *)
Inductive Signal : Type :=
  | Continue
  | StopWithoutError
  | StopWithError.

(** How a return code is read. *)
Definition signal_of (code : Z) : Signal :=
  if (code =? 0)%Z then Continue
  else if (0 <? code)%Z then StopWithoutError
  else StopWithError.

Section Traversal.
Context {D St : Type}.

(** A [DatasetFunction]: a [std::function] from a dataset pointer to
    [int]. It returns its code and leaves the state [St] it acts on (its
    captures, the leaf, the rest of the program) changed. *)
Definition DatasetFunction : Type := D -> St -> Z * St.

(** Modelled from the spec: [Apply(dobj, func)] (VTKUtils.h:95-97, declared
    only). The function is called once for each leaf dataset, blocks in
    ascending order; the first non-zero code stops the walk and is the
    result, and what the calls made so far did stays done. *)
Fixpoint Apply (dobj : vtkDataObject D) (func : DatasetFunction) (s : St)
  : Z * St :=
  match dobj with
  | NullBlock => (0%Z, s)
  | DataSet ds => func ds s
  | CompositeDataSet blocks =>
      (fix visit (bs : list (vtkDataObject D)) (s : St) : Z * St :=
         match bs with
         | [] => (0%Z, s)
         | b :: bs' =>
             let '(ret, s') := Apply b func s in
             if (ret =? 0)%Z then visit bs' s' else (ret, s')
         end) blocks s
  end.

(** The flat block index: the leaf positions of a data object in order,
    [None] where this rank holds no data. *)
Fixpoint Blocks (dobj : vtkDataObject D) : list (option D) :=
  match dobj with
  | NullBlock => [None]
  | DataSet ds => [Some ds]
  | CompositeDataSet blocks => concat (map Blocks blocks)
  end.

(** The blocks held, each with its flat index, numbering from [i]. *)
Fixpoint held_from (i : nat) (l : list (option D)) : list (nat * D) :=
  match l with
  | [] => []
  | None :: l' => held_from (S i) l'
  | Some ds :: l' => (i, ds) :: held_from (S i) l'
  end.

(** The leaf datasets of a data object with their flat block indices. *)
Definition Leaves (dobj : vtkDataObject D) : list (nat * D) :=
  held_from 0 (Blocks dobj).

(** A callback that also notes each dataset it is called on. *)
Definition traced (func : DatasetFunction)
  : D -> St * list D -> Z * (St * list D) :=
  fun ds '(s, log) =>
    let '(ret, s') := func ds s in (ret, (s', log ++ [ds])).

(** The state after the calls on [l] from [s], one after the other. *)
Definition after (func : DatasetFunction) (l : list D) (s : St) : St :=
  foldl (fun s ds => (func ds s).2) s l.

(** Every call on [l], made one after the other from [s], returns 0. *)
Fixpoint all_continue (func : DatasetFunction) (l : list D) (s : St)
  : Prop :=
  match l with
  | [] => True
  | ds :: l' => (func ds s).1 = 0%Z /\ all_continue func l' (func ds s).2
  end.

(** The walk over a flat run of leaves. *)
Fixpoint visit_leaves (func : DatasetFunction) (l : list D) (s : St)
  : Z * St :=
  match l with
  | [] => (0%Z, s)
  | ds :: l' =>
      let '(ret, s') := func ds s in
      if (ret =? 0)%Z then visit_leaves func l' s' else (ret, s')
  end.
End Traversal.
Arguments DatasetFunction : clear implicits.

(** ** Ghost layer metadata *)

(** Modelled from the spec: a mesh object as the ghost layer functions see
    it: its geometry and arrays [G], and its auxiliary, non-geometric store
    of named integer entries. *)
Record Mesh (G : Type) : Type := {
  Geometry : G;
  Auxiliary : gmap string Z
}.
Arguments Geometry {G} _.
Arguments Auxiliary {G} _.

(** Modelled from the spec: the two named integer entries of the ghost layer
    descriptor, the cell layer count and the node layer count. *)
Definition GhostCellLayersKey : string := "nGhostCellLayers".

Definition GhostNodeLayersKey : string := "nGhostNodeLayers".

(** Modelled from the spec: [SetGhostLayerMetadata] (VTKUtils.h:99-101,
    declared only). Writes both counts into the auxiliary store, over any
    prior value, and returns 0. *)
Definition SetGhostLayerMetadata {G} (mesh : Mesh G)
    (nGhostCellLayers nGhostNodeLayers : Z) : Z * Mesh G :=
  (0%Z,
   {| Geometry := Geometry mesh;
      Auxiliary := <[GhostNodeLayersKey := nGhostNodeLayers]>
                     (<[GhostCellLayersKey := nGhostCellLayers]>
                        (Auxiliary mesh)) |}).

(** Modelled from the spec: [GetGhostLayerMetadata] (VTKUtils.h:103-106,
    declared only). The counts come back through the two reference
    arguments, given here with the values they hold at the call; when no
    descriptor is attached the result is non-zero and they are left as they
    were. *)
Definition GetGhostLayerMetadata {G} (mesh : Mesh G)
    (nGhostCellLayers nGhostNodeLayers : Z) : Z * Z * Z :=
  match Auxiliary mesh !! GhostCellLayersKey,
        Auxiliary mesh !! GhostNodeLayersKey with
  | Some c, Some n => (0%Z, c, n)
  | _, _ => ((-1)%Z, nGhostCellLayers, nGhostNodeLayers)
  end.

(** ** Collecting and merging metadata *)

(** Modelled from the spec: one array as metadata records it, the tuple
    (name, association, element kind, component count). *)
Record ArrayTuple : Type := {
  ArrayName : string;
  ArrayCentering : Association;
  ArrayType : VTK_TT;
  ArrayComponents : nat
}.

(** Modelled from the spec: what the local pass records of one locally held
    leaf. *)
Record BlockDescriptor : Type := {
  BlockId : nat;
  BlockExtent : Extent;
  BlockArrays : list ArrayTuple;
  BlockGhostLayers : option (Z * Z)
}.

(** A rank's local descriptor: one entry per leaf it holds, none when it
    holds no block. *)
Abbreviation LocalMetadata := (list BlockDescriptor).

(** Modelled from the spec: the inconsistencies a merge reports, with the
    offending block or array and the offending rank. *)
Inductive MergeError : Type :=
  | OwnershipCollision (block rank : nat)
  | ArrayMismatch (name : string) (centering : Association) (rank : nat)
  | GhostLayerMismatch (rank : nat).

#[global] Instance MergeError_eq_dec : EqDecision MergeError.
Proof. solve_decision. Defined.

(** The outcome of a merge step. *)
Inductive merged (A : Type) : Type :=
  | Merged (a : A)
  | MergeFailure (e : MergeError).
Arguments Merged {A} a.
Arguments MergeFailure {A} e.

Definition merged_bind {A B} (m : merged A) (k : A -> merged B) : merged B :=
  match m with
  | Merged a => k a
  | MergeFailure e => MergeFailure e
  end.

Notation "x <-? m ; k" := (merged_bind m (fun x => k))
  (at level 100, m at next level, right associativity, only parsing).

(** Fold a merge step over contributions, stopping at the first failure. *)
Fixpoint fold_merge {A B} (f : A -> B -> merged A) (a : A) (l : list B)
  : merged A :=
  match l with
  | [] => Merged a
  | b :: l' => a' <-? f a b; fold_merge f a' l'
  end.

Definition min3 (a b : Z * Z * Z) : Z * Z * Z :=
  let '(x, y, z) := a in let '(x', y', z') := b in
  (Z.min x x', Z.min y y', Z.min z z').

Definition max3 (a b : Z * Z * Z) : Z * Z * Z :=
  let '(x, y, z) := a in let '(x', y', z') := b in
  (Z.max x x', Z.max y y', Z.max z z').

(** Modelled from the spec: bounding extents are combined by component-wise
    min/max. *)
Definition extent_join (e1 e2 : Extent) : Extent :=
  {| Lo := min3 (Lo e1) (Lo e2); Hi := max3 (Hi e1) (Hi e2) |}.

(** Modelled from the spec: the array-tuple set is the union across ranks,
    deduplicated by (name, association); a tuple that disagrees on element
    kind or component count with the one recorded is an inconsistency. *)
Definition merge_array (rank : nat)
    (arrays : gmap (string * Association) (VTK_TT * nat)) (t : ArrayTuple)
  : merged (gmap (string * Association) (VTK_TT * nat)) :=
  match arrays !! (ArrayName t, ArrayCentering t) with
  | None =>
      Merged (<[(ArrayName t, ArrayCentering t) :=
                  (ArrayType t, ArrayComponents t)]> arrays)
  | Some recorded =>
      if decide (recorded = (ArrayType t, ArrayComponents t))
      then Merged arrays
      else MergeFailure (ArrayMismatch (ArrayName t) (ArrayCentering t) rank)
  end.

(** Modelled from the spec: ghost layer counts must be identical across the
    ranks that report them. *)
Definition merge_ghost (rank : nat) (ghost reported : option (Z * Z))
  : merged (option (Z * Z)) :=
  match reported, ghost with
  | None, _ => Merged ghost
  | Some g, None => Merged (Some g)
  | Some g, Some g' =>
      if decide (g = g') then Merged ghost
      else MergeFailure (GhostLayerMismatch rank)
  end.

(** Modelled from the spec: one block of one rank enters the merge. A block
    index already claimed is a collision; otherwise the rank owns it, its
    arrays join the union, its extent the bounds, its ghost counts are
    checked. *)
Definition merge_block (rank : nat) (md : MeshMetadata) (b : BlockDescriptor)
  : merged MeshMetadata :=
  match BlockOwner md !! BlockId b with
  | Some _ => MergeFailure (OwnershipCollision (BlockId b) rank)
  | None =>
      arrays <-? fold_merge (merge_array rank) (Arrays md) (BlockArrays b);
      ghost <-? merge_ghost rank (GhostLayers md) (BlockGhostLayers b);
      Merged
        {| MeshType := MeshType md;
           BlockType := BlockType md;
           NumBlocks := S (NumBlocks md);
           BlockOwner := <[BlockId b := rank]> (BlockOwner md);
           BlockExtents := <[BlockId b := BlockExtent b]> (BlockExtents md);
           Bounds := Some (match Bounds md with
                           | None => BlockExtent b
                           | Some e => extent_join e (BlockExtent b)
                           end);
           Arrays := arrays;
           GhostLayers := ghost |}
  end.

(** Modelled from the spec: a rank's contribution, its blocks in turn; a
    rank without blocks contributes nothing. *)
Definition merge_rank (md : MeshMetadata) (contribution : nat * LocalMetadata)
  : merged MeshMetadata :=
  fold_merge (merge_block contribution.1) md contribution.2.

(** Modelled from the spec: the descriptor a merge starts from, the mesh and
    block kind as given and nothing collected yet. *)
Definition unmerged (md : MeshMetadata) : MeshMetadata :=
  {| MeshType := MeshType md;
     BlockType := BlockType md;
     NumBlocks := 0;
     BlockOwner := ∅;
     BlockExtents := ∅;
     Bounds := None;
     Arrays := ∅;
     GhostLayers := None |}.

(** Modelled from the spec: the merge of the local descriptors of all ranks
    (the list is indexed by rank), combined in ascending rank order so that
    the first rank to claim a block index is the lowest. *)
Definition Merge (md : MeshMetadata) (locals : list LocalMetadata)
  : merged MeshMetadata :=
  fold_merge merge_rank (unmerged md) (zip (seq 0 (length locals)) locals).

(** Modelled from the spec: the collective step of [GetMetadata]
    (VTKUtils.h:110-111, declared only). Every rank contributes its local
    descriptor, and every rank is handed the merge of them all: the list of
    outcomes is indexed by rank. *)
Definition GetMetadata (md : MeshMetadata) (locals : list LocalMetadata)
  : list (merged MeshMetadata) :=
  (fun _ => Merge md locals) <$> locals.

(** ** Sample inputs *)

(** Two allocations holding the same two doubles. *)
Definition example_heap : heap := {[ 1%nat := [7; 9]; 2%nat := [7; 9] ]}.

(** A single-component array of two doubles, interleaved. *)
Definition example_aos : vtkDataArray :=
  {| ClassName := "vtkDoubleArray"; ValueType := TT_double;
     Components := 1; NumberOfTuples := 2;
     Storage := Interleaved (Ptr 1 0) |}.

(** The same contents, separated. *)
Definition example_soa : vtkDataArray :=
  {| ClassName := "vtkSOADataArrayTemplate<double>"; ValueType := TT_double;
     Components := 1; NumberOfTuples := 2;
     Storage := Separated [Ptr 2 0] |}.

(** A stand-in for the parameter in the samples: the null pointer. *)
Definition example_access : SeparatedAccess := fun _ _ => nullptr.

(** Three components of two doubles each, separated: one buffer per
    component. *)
Definition example_soa3 : vtkDataArray :=
  {| ClassName := "vtkSOADataArrayTemplate<double>"; ValueType := TT_double;
     Components := 3; NumberOfTuples := 2;
     Storage := Separated [Ptr 1 0; Ptr 2 0; Ptr 3 0] |}.

(** An array class that is neither of the two layouts. *)
Definition example_bit_array : vtkDataArray :=
  {| ClassName := "vtkBitArray"; ValueType := TT_unsigned_char;
     Components := 1; NumberOfTuples := 8;
     Storage := Unrecognized |}.

(** The type codes of vtkType.h. *)
Definition example_codes : VTKTypeCodes :=
  {| VTK_POLY_DATA := 0; VTK_STRUCTURED_GRID := 2; VTK_RECTILINEAR_GRID := 3;
     VTK_UNSTRUCTURED_GRID := 4; VTK_IMAGE_DATA := 6; VTK_UNIFORM_GRID := 10;
     VTK_NON_OVERLAPPING_AMR := 30; VTK_OVERLAPPING_AMR := 31 |}.

(** [GetPointer] reported the invalid array: one message went to
    [SENSEI_ERROR] and the result is null. *)
Definition reports_invalid (r : exec (pointer * list string)) : Prop :=
  exists name : string, r = Returns (nullptr, [InvalidArrayMessage name]).

(** The name [GetPointer] puts in its message. *)
Definition class_or_nullptr (da : handle) : string :=
  match da with
  | Some a => ClassName a
  | None => "nullptr"
  end.

(** A collection of four blocks, one of them nested and one not held;
    datasets are named by numbers. *)
Definition example_collection : vtkDataObject nat :=
  CompositeDataSet
    [DataSet 10%nat; NullBlock;
     CompositeDataSet [DataSet 20%nat; DataSet 30%nat]; DataSet 40%nat].

(** A callback that adds the dataset to a running sum and always
    continues. *)
Definition example_sum : DatasetFunction nat nat :=
  fun ds s => (0%Z, (s + ds)%nat).

(** A callback that adds the dataset to a running sum and stops with an
    error at dataset 20. *)
Definition example_stop_at_20 : DatasetFunction nat nat :=
  fun ds s => (if decide (ds = 20%nat) then (-1)%Z else 0%Z, (s + ds)%nat).

(** The arrays of a merge carry [t] as it is. *)
Definition records (t : ArrayTuple)
    (arrays : gmap (string * Association) (VTK_TT * nat)) : Prop :=
  arrays !! (ArrayName t, ArrayCentering t)
  = Some (ArrayType t, ArrayComponents t).

Definition example_extent : Extent := {| Lo := (0, 0, 0); Hi := (1, 1, 1) |}.

(** Rank 0 holds block 0 with a double-precision cell array "pressure";
    rank 1 holds block 1 with a single-precision one. *)
Definition example_pressure (kind : VTK_TT) : ArrayTuple :=
  {| ArrayName := "pressure"; ArrayCentering := cell;
     ArrayType := kind; ArrayComponents := 1 |}.

Definition example_block (id : nat) (kind : VTK_TT) : BlockDescriptor :=
  {| BlockId := id; BlockExtent := example_extent;
     BlockArrays := [example_pressure kind]; BlockGhostLayers := None |}.

Definition example_locals : list LocalMetadata :=
  [[example_block 0 TT_double]; [example_block 1 TT_float]].

Definition example_metadata : MeshMetadata :=
  {| MeshType := 13; BlockType := 6; NumBlocks := 0; BlockOwner := ∅;
     BlockExtents := ∅; Bounds := None; Arrays := ∅; GhostLayers := None |}.

(** Two tuples of three doubles each, interleaved in one buffer. *)
Definition example_heap_aos3 : heap := {[ 1%nat := [1; 2; 3; 4; 5; 6] ]}.

Definition example_aos3 : vtkDataArray :=
  {| ClassName := "vtkDoubleArray"; ValueType := TT_double;
     Components := 3; NumberOfTuples := 2;
     Storage := Interleaved (Ptr 1 0) |}.


(** [md] with its block type and its mesh type exchanged. *)
Definition exchange_kinds (md : MeshMetadata) : MeshMetadata :=
  {| MeshType := BlockType md;
     BlockType := MeshType md;
     NumBlocks := NumBlocks md;
     BlockOwner := BlockOwner md;
     BlockExtents := BlockExtents md;
     Bounds := Bounds md;
     Arrays := Arrays md;
     GhostLayers := GhostLayers md |}.

Section Kinds.
Context `{!VTKTypeCodes}.

(** The type codes are pairwise distinct, as the values of vtkType.h are. *)
Definition distinct_codes : Prop :=
  NoDup [VTK_POLY_DATA; VTK_STRUCTURED_GRID; VTK_RECTILINEAR_GRID;
         VTK_UNSTRUCTURED_GRID; VTK_IMAGE_DATA; VTK_UNIFORM_GRID;
         VTK_NON_OVERLAPPING_AMR; VTK_OVERLAPPING_AMR].

(** How many of the six kind predicates hold of [md]. *)
Definition kinds_held (md : MeshMetadata) : nat :=
  (Nat.b2n (AMR md) + Nat.b2n (Structured md) + Nat.b2n (Polydata md)
   + Nat.b2n (Unstructured md) + Nat.b2n (StretchedCartesian md)
   + Nat.b2n (UniformCartesian md))%nat.
End Kinds.

(** A structured grid described as its own single block. *)
Definition example_structured : MeshMetadata :=
  {| MeshType := 2; BlockType := 2; NumBlocks := 1; BlockOwner := ∅;
     BlockExtents := ∅; Bounds := None; Arrays := ∅; GhostLayers := None |}.

(** An overlapping AMR mesh of uniform grid blocks. *)
Definition example_amr_uniform : MeshMetadata :=
  {| MeshType := 31; BlockType := 10; NumBlocks := 4; BlockOwner := ∅;
     BlockExtents := ∅; Bounds := None; Arrays := ∅; GhostLayers := None |}.

(** One code settles the others, the codes being distinct. *)
Ltac settle_kind :=
  rewrite ?Z.eqb_refl;
  repeat match goal with
  | |- context [(?a =? ?b)%Z] =>
      rewrite (proj2 (Z.eqb_neq a b)) by congruence
  end;
  simpl; lia.

(** * Properties *)

(** ** [GetPointer] *)

Lemma load_advance_0 (h : heap) (p : pointer) (i : nat) :
  load h (advance p 0) i = load h p i.
Proof. destruct p as [|b o]; simpl; [done|]. by rewrite Nat.add_0_r. Qed.

Lemma load_range_length (h : heap) (p : pointer) (n : nat) :
  length (load_range h p n) = n.
Proof. unfold load_range. by rewrite length_fmap, length_seq. Qed.

(** The contents of a single-component array are its first components. *)
Lemma Contents_single (h : heap) (a : vtkDataArray) :
  NumberOfComponents a = 1%nat ->
  Contents h a = (fun t => GetTypedComponent h a t 0) <$> seq 0 (NumberOfTuples a).
Proof.
  intros Hc. unfold Contents. rewrite Hc. simpl.
  induction (seq 0 (NumberOfTuples a)) as [|t l IH]; simpl; [done|].
  by f_equal.
Qed.

Section GetPointerProperties.
Context {access : SeparatedAccess}.

(** An interleaved array that casts is read through its buffer. *)
Lemma GetPointer_AOS (T : VTK_TT) (a : vtkDataArray) (buffer : pointer) :
  dynamic_cast_AOS T (Some a) = Some buffer ->
  GetPointer T (Some a) = Returns (AOS_GetPointer buffer 0, []) /\
  Storage a = Interleaved buffer.
Proof.
  unfold GetPointer. intros H. rewrite H. split; [done|].
  simpl in H. destruct (Storage a); try done. case_decide; congruence.
Qed.

(** A separated array that casts is read through its [GetPointer(0)],
    whatever its number of components. *)
Lemma GetPointer_SOA (T : VTK_TT) (a : vtkDataArray) (buffers : list pointer) :
  dynamic_cast_SOA T (Some a) = Some buffers ->
  GetPointer T (Some a) = Returns (SOA_GetPointer buffers 0, []) /\
  Storage a = Separated buffers.
Proof.
  unfold GetPointer. intros H.
  assert (Storage a = Separated buffers) as Hs.
  { simpl in H. destruct (Storage a); try done. case_decide; congruence. }
  split; [|done]. simpl. rewrite Hs. simpl in H. rewrite Hs in H.
  by rewrite H.
Qed.

(** C1: a single-component array holding the same logical contents once in
    interleaved and once in separated layout: [GetPointer] returns for each a
    pointer under which the element range reads the same sequence, namely
    those contents. *)
Theorem GetPointer_layout_agnostic (h : heap) (T : VTK_TT)
    (aos soa : vtkDataArray) (buffer : pointer) (buffers : list pointer)
    (contents : list Z) :
  dynamic_cast_AOS T (Some aos) = Some buffer ->
  dynamic_cast_SOA T (Some soa) = Some buffers ->
  NumberOfComponents aos = 1%nat ->
  NumberOfComponents soa = 1%nat ->
  Contents h aos = Some <$> contents ->
  Contents h soa = Some <$> contents ->
  exists pa pb : pointer,
    GetPointer T (Some aos) = Returns (pa, []) /\
    GetPointer T (Some soa) = Returns (pb, []) /\
    load_range h pa (length contents) = load_range h pb (length contents) /\
    load_range h pa (length contents) = Some <$> contents.
Proof.
  intros Ha Hs Hca Hcs Hla Hls.
  destruct (GetPointer_AOS _ _ _ Ha) as [Hpa Hsa].
  destruct (GetPointer_SOA _ _ _ Hs) as [Hps Hss].
  exists (AOS_GetPointer buffer 0), (SOA_GetPointer buffers 0).
  assert (NumberOfTuples aos = length contents) as Hna.
  { apply (f_equal length) in Hla.
    rewrite Contents_single, !length_fmap, length_seq in Hla; done. }
  assert (NumberOfTuples soa = length contents) as Hns.
  { apply (f_equal length) in Hls.
    rewrite Contents_single, !length_fmap, length_seq in Hls; done. }
  assert (load_range h (AOS_GetPointer buffer 0) (length contents)
          = Some <$> contents) as Ea.
  { rewrite <- Hla, Contents_single, Hna by done. unfold load_range.
    apply list_fmap_ext. intros _ t _. unfold AOS_GetPointer, GetTypedComponent.
    rewrite load_advance_0, Hsa, Hca. f_equal. lia. }
  assert (load_range h (SOA_GetPointer buffers 0) (length contents)
          = Some <$> contents) as Es.
  { rewrite <- Hls, Contents_single, Hns by done. unfold load_range.
    apply list_fmap_ext. intros _ t _. unfold SOA_GetPointer, GetTypedComponent.
    rewrite Hss. unfold NumberOfComponents in Hcs. rewrite Hss in Hcs.
    destruct buffers as [|b [|b' bs]]; try discriminate Hcs. simpl.
    apply load_advance_0. }
  repeat split; try done. by rewrite Ea, Es.
Qed.

(** C8, as the code has it: an array that casts to neither the interleaved
    nor the separated array class of the element type (the null handle
    among them) is reported to [SENSEI_ERROR], with its class name, and the
    result is null. A separated array of the element type is accepted
    whatever its number of components: nothing is reported and the result is
    what its [GetPointer(0)] returns. *)
Theorem GetPointer_invalid_layout (T : VTK_TT) (da : handle) :
  (dynamic_cast_AOS T da = None ->
   dynamic_cast_SOA T da = None ->
   GetPointer T da
   = Returns (nullptr, [InvalidArrayMessage (class_or_nullptr da)]) /\
   reports_invalid (GetPointer T da)) /\
  (forall (a : vtkDataArray) (buffers : list pointer),
     da = Some a ->
     dynamic_cast_SOA T da = Some buffers ->
     NumberOfComponents a = length buffers /\
     GetPointer T da = Returns (SOA_GetPointer buffers 0, []) /\
     ~ reports_invalid (GetPointer T da)).
Proof.
  split.
  - intros Ha Hs. unfold GetPointer, reports_invalid. rewrite Ha, Hs.
    destruct da as [a|]; simpl; eauto.
  - intros a buffers -> Hs.
    destruct (GetPointer_SOA _ _ _ Hs) as [Hp Hst].
    split; [unfold NumberOfComponents; by rewrite Hst|].
    split; [exact Hp|]. rewrite Hp. intros [name H]. discriminate H.
Qed.

(** C10: on the null handle both casts fail, the message is built from the
    literal and not from a member call, and the call returns the null
    pointer: no undefined behaviour whatever the element type. *)
Theorem GetPointer_null_handle (T : VTK_TT) :
  dynamic_cast_AOS T None = None /\
  dynamic_cast_SOA T None = None /\
  GetClassName None = UndefinedBehaviour /\
  GetPointer T None
  = Returns (nullptr, ["Invalid vtkDataArray nullptr"%string]).
Proof. repeat split. Qed.
End GetPointerProperties.

Lemma GetPointer_layout_agnostic_witness :
  exists pa pb : pointer,
    @GetPointer example_access TT_double (Some example_aos)
    = Returns (pa, []) /\
    @GetPointer example_access TT_double (Some example_soa)
    = Returns (pb, []) /\
    load_range example_heap pa 2 = load_range example_heap pb 2 /\
    load_range example_heap pa 2 = [Some 7; Some 9].
Proof.
  apply (@GetPointer_layout_agnostic example_access example_heap TT_double
           example_aos example_soa (Ptr 1 0) [Ptr 2 0] [7; 9]); reflexivity.
Defined.

Lemma GetPointer_invalid_layout_witness :
  (@GetPointer example_access TT_double (Some example_bit_array)
   = Returns (nullptr, ["Invalid vtkDataArray vtkBitArray"%string]) /\
   reports_invalid
     (@GetPointer example_access TT_double (Some example_bit_array))) /\
  (NumberOfComponents example_soa3 = 3%nat /\
   @GetPointer example_access TT_double (Some example_soa3)
   = Returns (@SOA_GetPointer example_access [Ptr 1 0; Ptr 2 0; Ptr 3 0] 0,
              []) /\
   ~ reports_invalid
       (@GetPointer example_access TT_double (Some example_soa3))).
Proof.
  split.
  - apply (proj1 (@GetPointer_invalid_layout example_access TT_double
                    (Some example_bit_array))); reflexivity.
  - apply (proj2 (@GetPointer_invalid_layout example_access TT_double
                    (Some example_soa3)) example_soa3
             [Ptr 1 0; Ptr 2 0; Ptr 3 0]); reflexivity.
Defined.

(** C8, as the claim has it, fails: a separated array of three components is
    not reported. Whatever its [GetPointer(0)] returns, [GetPointer] returns
    it and sends nothing to [SENSEI_ERROR]. *)
Lemma GetPointer_multi_component_SOA_unreported :
  dynamic_cast_SOA TT_double (Some example_soa3)
  = Some [Ptr 1 0; Ptr 2 0; Ptr 3 0] /\
  NumberOfComponents example_soa3 = 3%nat /\
  (forall access : SeparatedAccess,
     (exists p : pointer,
        @GetPointer access TT_double (Some example_soa3)
        = Returns (p, [])) /\
     ~ reports_invalid (@GetPointer access TT_double (Some example_soa3))).
Proof.
  repeat split.
  - by eexists.
  - intros [name H]. discriminate H.
Qed.

(** ** Associations *)

(** C6: exactly the three spellings parse, each to its association; any other
    string, "Cell" among them, gives the no-association result; and the name
    of a parsed association is the string that was parsed. *)
Theorem GetAssociation_exact :
  (forall (s : string) (a : Association),
     GetAssociation s = Some a <->
     (s = "point"%string /\ a = point) \/
     (s = "cell"%string /\ a = cell) \/
     (s = "field"%string /\ a = field)) /\
  (forall s : string,
     s <> "point"%string -> s <> "cell"%string -> s <> "field"%string ->
     GetAssociation s = None) /\
  GetAssociation "Cell" = None /\
  (forall (s : string) (a : Association),
     GetAssociation s = Some a -> GetAttributesName a = s) /\
  (forall a : Association, GetAssociation (GetAttributesName a) = Some a).
Proof.
  assert (forall s a, GetAssociation s = Some a ->
            (s = "point"%string /\ a = point) \/
            (s = "cell"%string /\ a = cell) \/
            (s = "field"%string /\ a = field)) as Hparse.
  { intros s a. unfold GetAssociation.
    repeat case_decide; intros [= <-]; auto. }
  repeat split.
  - apply Hparse.
  - intros [[-> ->]|[[-> ->]|[-> ->]]]; reflexivity.
  - intros s H1 H2 H3. unfold GetAssociation.
    repeat case_decide; congruence.
  - intros s a H.
    destruct (Hparse s a H) as [[-> ->]|[[-> ->]|[-> ->]]]; reflexivity.
  - intros []; reflexivity.
Qed.

(** ** Classification predicates *)

Section PredicateProperties.
Context `{!VTKTypeCodes}.
Local Open Scope Z_scope.

Lemma either_code_true (x y k : Z) :
  (x =? k) || (y =? k) = true <-> x = k \/ y = k.
Proof. rewrite orb_true_iff, !Z.eqb_eq. tauto. Qed.

(** C7: [LogicallyCartesian] is the disjunction of [Structured],
    [UniformCartesian] and [StretchedCartesian], and is computed from
    these three. *)
Theorem LogicallyCartesian_disjunction (md : MeshMetadata) :
  LogicallyCartesian md
  = Structured md || UniformCartesian md || StretchedCartesian md /\
  (LogicallyCartesian md = true <->
   Structured md = true \/ UniformCartesian md = true \/
   StretchedCartesian md = true).
Proof.
  split; [reflexivity|]. unfold LogicallyCartesian.
  rewrite !orb_true_iff. tauto.
Qed.

(** C9: [AMR] reads the mesh type alone: it holds exactly for the two AMR
    mesh types, whatever the block type, so not when only the block type
    is an AMR kind; each of the other predicates holds when the block type
    or the mesh type is of its kind. *)
Theorem AMR_reads_MeshType_only :
  (forall md, AMR md = true <->
     MeshType md = VTK_OVERLAPPING_AMR \/
     MeshType md = VTK_NON_OVERLAPPING_AMR) /\
  (forall md md', MeshType md = MeshType md' -> AMR md = AMR md') /\
  (forall md,
     BlockType md = VTK_OVERLAPPING_AMR \/
     BlockType md = VTK_NON_OVERLAPPING_AMR ->
     MeshType md <> VTK_OVERLAPPING_AMR ->
     MeshType md <> VTK_NON_OVERLAPPING_AMR ->
     AMR md = false) /\
  (forall md, Structured md = true <->
     BlockType md = VTK_STRUCTURED_GRID \/
     MeshType md = VTK_STRUCTURED_GRID) /\
  (forall md, Polydata md = true <->
     BlockType md = VTK_POLY_DATA \/ MeshType md = VTK_POLY_DATA) /\
  (forall md, Unstructured md = true <->
     BlockType md = VTK_UNSTRUCTURED_GRID \/
     MeshType md = VTK_UNSTRUCTURED_GRID) /\
  (forall md, StretchedCartesian md = true <->
     BlockType md = VTK_RECTILINEAR_GRID \/
     MeshType md = VTK_RECTILINEAR_GRID) /\
  (forall md, UniformCartesian md = true <->
     BlockType md = VTK_IMAGE_DATA \/ MeshType md = VTK_IMAGE_DATA \/
     BlockType md = VTK_UNIFORM_GRID \/ MeshType md = VTK_UNIFORM_GRID).
Proof.
  assert (forall md, AMR md = true <->
            MeshType md = VTK_OVERLAPPING_AMR \/
            MeshType md = VTK_NON_OVERLAPPING_AMR) as Hamr.
  { intros md. unfold AMR. by rewrite orb_true_iff, !Z.eqb_eq. }
  split; [exact Hamr|].
  split; [intros md md' E; unfold AMR; by rewrite E|].
  split.
  { intros md _ H1 H2. apply not_true_is_false. rewrite Hamr. tauto. }
  do 4 (split; [intros md; apply either_code_true|]).
  intros md. unfold UniformCartesian.
  rewrite !orb_true_iff, !Z.eqb_eq. tauto.
Qed.
End PredicateProperties.

(** ** Ghost layer metadata *)

Lemma ghost_keys_differ : GhostCellLayersKey <> GhostNodeLayersKey.
Proof. discriminate. Qed.

(** C5: what [SetGhostLayerMetadata] stored, [GetGhostLayerMetadata] finds
    (result 0) and returns unchanged; on a mesh without the descriptor the
    result is the non-zero not-found code and the two counts are left as the
    caller had them, not set to zero. *)
Theorem GhostLayerMetadata_roundtrip {G : Type} (mesh : Mesh G)
    (c n c0 n0 : Z) :
  (SetGhostLayerMetadata mesh c n).1 = 0%Z /\
  GetGhostLayerMetadata (SetGhostLayerMetadata mesh c n).2 c0 n0
  = (0%Z, c, n) /\
  (Auxiliary mesh !! GhostCellLayersKey = None \/
   Auxiliary mesh !! GhostNodeLayersKey = None ->
   GetGhostLayerMetadata mesh c0 n0 = ((-1)%Z, c0, n0) /\
   (GetGhostLayerMetadata mesh c0 n0).1.1 <> 0%Z).
Proof.
  split; [reflexivity|]. split.
  - unfold GetGhostLayerMetadata, SetGhostLayerMetadata. simpl.
    rewrite lookup_insert_ne by (symmetry; apply ghost_keys_differ).
    by rewrite !lookup_insert_eq.
  - intros H.
    assert (GetGhostLayerMetadata mesh c0 n0 = ((-1)%Z, c0, n0)) as E.
    { unfold GetGhostLayerMetadata.
      destruct H as [-> | ->]; [done|].
      by destruct (Auxiliary mesh !! GhostCellLayersKey). }
    by rewrite E.
Qed.

(** ** Traversal *)

Section TraversalLemmas.
Context {D St : Type}.
Implicit Types (func : DatasetFunction D St) (s : St) (l : list D).

(** Induction over a data object and the blocks under it. *)
Lemma vtkDataObject_blocks_ind (P : vtkDataObject D -> Prop) :
  P NullBlock ->
  (forall ds, P (DataSet ds)) ->
  (forall blocks, Forall P blocks -> P (CompositeDataSet blocks)) ->
  forall dobj, P dobj.
Proof.
  intros Hnull Hleaf Hcomp.
  fix IH 1. intros [|ds|blocks]; [exact Hnull|apply Hleaf|].
  apply Hcomp. induction blocks as [|b bs IHbs]; constructor.
  - apply IH.
  - exact IHbs.
Qed.

Lemma visit_leaves_app func l1 l2 s :
  visit_leaves func (l1 ++ l2) s
  = let '(ret, s') := visit_leaves func l1 s in
    if (ret =? 0)%Z then visit_leaves func l2 s' else (ret, s').
Proof.
  revert s. induction l1 as [|ds l1 IH]; intros s; simpl.
  - reflexivity.
  - destruct (func ds s) as [ret s']. destruct (ret =? 0)%Z eqn:E.
    + apply IH.
    + simpl. by rewrite E.
Qed.

(** The datasets among a run of blocks, in order. *)
Lemma held_from_datasets (i : nat) (bs : list (option D)) :
  (held_from i bs).*2 = omap id bs.
Proof.
  revert i. induction bs as [|[ds|] bs IH]; intros i; simpl.
  - reflexivity.
  - f_equal. apply IH.
  - apply IH.
Qed.

(** [held_from] lists exactly the blocks held, under their indices. *)
Lemma held_from_lookup (i : nat) (bs : list (option D)) (j : nat) (ds : D) :
  (j, ds) ∈ held_from i bs <->
  (i <= j)%nat /\ bs !! (j - i)%nat = Some (Some ds).
Proof.
  revert i. induction bs as [|[d|] bs IH]; intros i; simpl.
  - rewrite elem_of_nil. split; [done|]. intros [_ H]. done.
  - rewrite elem_of_cons, IH. split.
    + intros [[= -> ->]|[Hle H]].
      * split; [lia|]. by rewrite Nat.sub_diag.
      * split; [lia|]. by replace (j - i)%nat with (S (j - S i)) by lia.
    + intros [Hle H]. destruct (decide (j = i)) as [->|Hne].
      * rewrite Nat.sub_diag in H. simpl in H. left. congruence.
      * right. split; [lia|].
        by replace (j - i)%nat with (S (j - S i)) in H by lia.
  - rewrite IH. split.
    + intros [Hle H]. split; [lia|].
      by replace (j - i)%nat with (S (j - S i)) by lia.
    + intros [Hle H]. destruct (decide (j = i)) as [->|Hne].
      * rewrite Nat.sub_diag in H. done.
      * split; [lia|].
        by replace (j - i)%nat with (S (j - S i)) in H by lia.
Qed.

(** Its indices start at [i] and ascend strictly. *)
Lemma held_from_ascending (i : nat) (bs : list (option D)) :
  Forall (fun j => (i <= j)%nat) (held_from i bs).*1 /\
  StronglySorted lt (held_from i bs).*1.
Proof.
  revert i. induction bs as [|[d|] bs IH]; intros i; simpl.
  - split; constructor.
  - destruct (IH (S i)) as [Hge Hsorted]. split.
    + constructor; [lia|]. eapply Forall_impl; [exact Hge|].
      simpl. intros; lia.
    + constructor; [exact Hsorted|].
      eapply Forall_impl; [exact Hge|]. simpl. intros; lia.
  - destruct (IH (S i)) as [Hge Hsorted]. split; [|exact Hsorted].
    eapply Forall_impl; [exact Hge|]. simpl. intros; lia.
Qed.

(** The walk over a data object is the walk over its datasets in block
    order. *)
Lemma Apply_visit_leaves (dobj : vtkDataObject D) func s :
  Apply dobj func s = visit_leaves func (omap id (Blocks dobj)) s.
Proof.
  revert s. induction dobj as [|ds|blocks IH] using vtkDataObject_blocks_ind;
    intros s; simpl.
  - reflexivity.
  - destruct (func ds s) as [ret s']. by destruct (ret =? 0)%Z eqn:E;
      [apply Z.eqb_eq in E; subst|].
  - revert s. induction IH as [|b bs Hb _ IHbs]; intros s; simpl.
    + reflexivity.
    + rewrite omap_app, visit_leaves_app, <- Hb.
      destruct (Apply b func s) as [ret s'].
      destruct (ret =? 0)%Z; [apply IHbs|reflexivity].
Qed.

End TraversalLemmas.

Section TraversalProperties.
Context {D St : Type}.
Implicit Types (func : DatasetFunction D St) (s : St) (l : list D).

(** A traced walk in which every call returns 0 runs to the end. *)
Lemma visit_leaves_all_continue func l s (log : list D) :
  all_continue func l s ->
  visit_leaves (traced func) l (s, log) = (0%Z, (after func l s, log ++ l)).
Proof.
  revert s log. induction l as [|ds l IH]; intros s log; simpl.
  - intros _. by rewrite app_nil_r.
  - intros [H0 Hrest]. unfold after. simpl.
    destruct (func ds s) as [ret s'] eqn:E. simpl in *. subst ret. simpl.
    rewrite IH by exact Hrest. by rewrite <- app_assoc.
Qed.

(** C2: let the leaves of a collection be [pre], then [x], then [post],
    where every call on [pre] returns 0 and the call on [x] returns
    [code <> 0]. Then [Apply] calls the function on [pre] and [x] and on no
    leaf of [post], returns [code], which signals a stop without error when
    positive and with error when negative, and the state is the one the
    calls made have left. *)
Theorem Apply_stops_at_first_nonzero (dobj : vtkDataObject D) func s
    (pre post : list D) (x : D) (code : Z) :
  (Leaves dobj).*2 = pre ++ x :: post ->
  all_continue func pre s ->
  (func x (after func pre s)).1 = code ->
  code <> 0%Z ->
  Apply dobj (traced func) (s, [])
  = (code, ((func x (after func pre s)).2, pre ++ [x])) /\
  (Apply dobj func s).1 = code /\
  (Apply dobj func s).2 = after func (pre ++ [x]) s /\
  signal_of code
  = (if (0 <? code)%Z then StopWithoutError else StopWithError).
Proof.
  intros Hleaves Hpre Hx Hcode.
  unfold Leaves in Hleaves. rewrite held_from_datasets in Hleaves.
  assert (Apply dobj (traced func) (s, [])
          = (code, ((func x (after func pre s)).2, pre ++ [x]))) as Htr.
  { rewrite Apply_visit_leaves, Hleaves, visit_leaves_app.
    rewrite visit_leaves_all_continue by exact Hpre. simpl.
    destruct (func x (after func pre s)) as [ret s'] eqn:E. simpl in *.
    subst ret. by destruct (code =? 0)%Z eqn:E0;
      [apply Z.eqb_eq in E0|]. }
  split; [exact Htr|].
  assert (visit_leaves func (pre ++ x :: post) s
          = (code, after func (pre ++ [x]) s)) as Hplain.
  { clear Htr Hleaves. revert s Hpre Hx.
    induction pre as [|ds pre IH]; intros s Hpre Hx; simpl in *.
    - unfold after. simpl. destruct (func x s) as [ret s']. simpl in *.
      subst ret. by destruct (code =? 0)%Z eqn:E0;
        [apply Z.eqb_eq in E0|].
    - destruct Hpre as [H0 Hpre]. unfold after in *. simpl.
      destruct (func ds s) as [ret s']. simpl in *. subst ret. simpl.
      by apply IH. }
  rewrite Apply_visit_leaves, Hleaves, Hplain. repeat split.
  unfold signal_of. by destruct (code =? 0)%Z eqn:E0;
    [apply Z.eqb_eq in E0|].
Qed.

(** C3: with a function that always returns 0, [Apply] calls it on every
    leaf dataset of the collection, once per block held and in ascending
    block index order, and returns 0. *)
Theorem Apply_visits_every_leaf (dobj : vtkDataObject D) func s :
  (forall ds s', (func ds s').1 = 0%Z) ->
  Apply dobj (traced func) (s, [])
  = (0%Z, (after func (Leaves dobj).*2 s, (Leaves dobj).*2)) /\
  (Apply dobj func s).1 = 0%Z /\
  StronglySorted lt (Leaves dobj).*1 /\
  (forall (i : nat) (ds : D),
     (i, ds) ∈ Leaves dobj <-> Blocks dobj !! i = Some (Some ds)).
Proof.
  intros Hzero.
  assert (forall l s', all_continue func l s') as Hall.
  { induction l as [|ds l IH]; intros s'; simpl; [done|].
    split; [apply Hzero|apply IH]. }
  assert (Apply dobj (traced func) (s, [])
          = (0%Z, (after func (Leaves dobj).*2 s, (Leaves dobj).*2)))
    as Htr.
  { unfold Leaves. rewrite held_from_datasets, Apply_visit_leaves.
    by rewrite visit_leaves_all_continue by apply Hall. }
  split; [exact Htr|]. split.
  - rewrite Apply_visit_leaves.
    clear Htr. generalize (omap id (Blocks dobj)). intros l. revert s.
    induction l as [|ds l IH]; intros s; simpl; [done|].
    specialize (Hzero ds s). destruct (func ds s) as [ret s'].
    simpl in Hzero. subst ret. simpl. apply IH.
  - split; [apply held_from_ascending|].
    intros i ds. unfold Leaves. rewrite held_from_lookup, Nat.sub_0_r.
    split; [by intros [_ ?]|]. intros ?; split; [lia|done].
Qed.
End TraversalProperties.

Lemma Apply_stops_at_first_nonzero_witness :
  Apply example_collection (traced example_stop_at_20) (0%nat, [])
  = ((-1)%Z, (30%nat, [10%nat; 20%nat])) /\
  (Apply example_collection example_stop_at_20 0%nat).1 = (-1)%Z /\
  (Apply example_collection example_stop_at_20 0%nat).2 = 30%nat /\
  signal_of (-1) = StopWithError.
Proof.
  apply (Apply_stops_at_first_nonzero example_collection example_stop_at_20
           0%nat [10%nat] [30%nat; 40%nat] 20%nat (-1)%Z).
  - reflexivity.
  - simpl. split; [reflexivity|exact I].
  - reflexivity.
  - discriminate.
Defined.

Lemma Apply_visits_every_leaf_witness :
  Apply example_collection (traced example_sum) (0%nat, [])
  = (0%Z, (100%nat, [10%nat; 20%nat; 30%nat; 40%nat])) /\
  (Apply example_collection example_sum 0%nat).1 = 0%Z /\
  StronglySorted lt (Leaves example_collection).*1 /\
  (forall (i ds : nat),
     (i, ds) ∈ Leaves example_collection <->
     Blocks example_collection !! i = Some (Some ds)).
Proof.
  apply (Apply_visits_every_leaf example_collection example_sum 0%nat).
  intros ds s'. reflexivity.
Defined.

(** ** Merging metadata *)

(** What holds after each step of a successful fold holds at its end: [R]
    relates the accumulator before and after, [Q] is what a step leaves of
    its contribution. *)
Lemma fold_merge_kept {A B : Type} (f : A -> B -> merged A)
    (R : A -> A -> Prop) (Q : B -> A -> Prop) :
  (forall a, R a a) ->
  (forall a1 a2 a3, R a1 a2 -> R a2 a3 -> R a1 a3) ->
  (forall a b a', f a b = Merged a' -> R a a' /\ Q b a') ->
  (forall b a a', Q b a -> R a a' -> Q b a') ->
  forall (l : list B) (a a' : A),
    fold_merge f a l = Merged a' ->
    R a a' /\ forall b, b ∈ l -> Q b a'.
Proof.
  intros Hrefl Htrans Hstep Hmono.
  induction l as [|b l IH]; intros a a' H; simpl in H.
  - injection H as <-. split; [apply Hrefl|]. intros b Hb.
    by apply elem_of_nil in Hb.
  - destruct (f a b) as [a1|e] eqn:E; simpl in H; [|discriminate].
    destruct (Hstep _ _ _ E) as [HR HQ].
    destruct (IH _ _ H) as [HR' HQ']. split.
    + eapply Htrans; eassumption.
    + intros b' [->|Hb]%elem_of_cons; [|by apply HQ'].
      eapply Hmono; eassumption.
Qed.

Lemma records_mono (t : ArrayTuple)
    (m m' : gmap (string * Association) (VTK_TT * nat)) :
  records t m -> m ⊆ m' -> records t m'.
Proof. unfold records. intros H Hsub. eapply lookup_weaken; eassumption. Qed.

Lemma merge_array_records (rank : nat)
    (m m' : gmap (string * Association) (VTK_TT * nat)) (t : ArrayTuple) :
  merge_array rank m t = Merged m' -> m ⊆ m' /\ records t m'.
Proof.
  unfold merge_array, records.
  destruct (m !! (ArrayName t, ArrayCentering t)) as [recorded|] eqn:E.
  - case_decide as Heq; [|discriminate]. intros [= <-]. by subst.
  - intros [= <-]. split; [by apply insert_subseteq|apply lookup_insert_eq].
Qed.

Lemma merge_block_records (rank : nat) (md md' : MeshMetadata)
    (b : BlockDescriptor) :
  merge_block rank md b = Merged md' ->
  Arrays md ⊆ Arrays md' /\
  forall t, t ∈ BlockArrays b -> records t (Arrays md').
Proof.
  unfold merge_block. destruct (BlockOwner md !! BlockId b); [discriminate|].
  destruct (fold_merge (merge_array rank) (Arrays md) (BlockArrays b))
    as [arrays|e] eqn:E; simpl; [|discriminate].
  destruct (merge_ghost rank (GhostLayers md) (BlockGhostLayers b));
    simpl; [|discriminate].
  intros [= <-]. simpl.
  eapply (fold_merge_kept (merge_array rank) (⊆) records); [..|exact E].
  - intros x. reflexivity.
  - intros a1 a2 a3 H12 H23. by transitivity a2.
  - intros m t m'. apply merge_array_records.
  - apply records_mono.
Qed.

Lemma merge_rank_records (md md' : MeshMetadata)
    (contribution : nat * LocalMetadata) :
  merge_rank md contribution = Merged md' ->
  Arrays md ⊆ Arrays md' /\
  forall b, b ∈ contribution.2 ->
    forall t, t ∈ BlockArrays b -> records t (Arrays md').
Proof.
  unfold merge_rank. intros H.
  eapply (fold_merge_kept (merge_block contribution.1)
            (fun m m' => Arrays m ⊆ Arrays m')
            (fun b m => forall t, t ∈ BlockArrays b -> records t (Arrays m)));
    [..|exact H].
  - intros x. reflexivity.
  - intros a1 a2 a3 H12 H23. by transitivity (Arrays a2).
  - intros m b m'. apply merge_block_records.
  - intros b a a' HQ HR t Ht. eapply records_mono; eauto.
Qed.

(** A merge that succeeds carries every array tuple of every block of every
    rank as that rank reported it. *)
Lemma Merge_records (md md' : MeshMetadata) (locals : list LocalMetadata)
    (i : nat) (li : LocalMetadata) (b : BlockDescriptor) (t : ArrayTuple) :
  Merge md locals = Merged md' ->
  locals !! i = Some li -> b ∈ li -> t ∈ BlockArrays b ->
  records t (Arrays md').
Proof.
  unfold Merge. intros H Hi Hb Ht.
  assert (Arrays (unmerged md) ⊆ Arrays md' /\
          forall c, c ∈ zip (seq 0 (length locals)) locals ->
            forall b, b ∈ c.2 ->
              forall t, t ∈ BlockArrays b -> records t (Arrays md'))
    as [_ Hall].
  { eapply (fold_merge_kept merge_rank
              (fun m m' => Arrays m ⊆ Arrays m')
              (fun c m => forall b, b ∈ c.2 ->
                 forall t, t ∈ BlockArrays b -> records t (Arrays m)));
      [..|exact H].
    - intros x. reflexivity.
    - intros a1 a2 a3 H12 H23. by transitivity (Arrays a2).
    - intros m c m'. apply merge_rank_records.
    - intros c a a' HQ HR b' Hb' t' Ht'. eapply records_mono; eauto. }
  refine (Hall (i, li) _ b Hb t Ht).
  apply list_elem_of_lookup. exists i.
  rewrite lookup_zip_with, lookup_seq_lt, Hi; [done|].
  by eapply lookup_lt_Some.
Qed.

Lemma GetMetadata_replicate (md : MeshMetadata) (locals : list LocalMetadata) :
  GetMetadata md locals = replicate (length locals) (Merge md locals).
Proof.
  unfold GetMetadata. generalize (Merge md locals). intros r.
  induction locals as [|l ls IH]; simpl; [done|]. by f_equal.
Qed.

(** C4: when two ranks report an array of the same name and association with
    different element kinds or component counts, the merge fails, and the
    collective call hands the same failure to every rank: no rank receives a
    merged descriptor that has settled on one of the two. *)
Theorem GetMetadata_array_mismatch (md : MeshMetadata)
    (locals : list LocalMetadata) (i j : nat) (li lj : LocalMetadata)
    (bi bj : BlockDescriptor) (ti tj : ArrayTuple) :
  locals !! i = Some li -> locals !! j = Some lj ->
  bi ∈ li -> bj ∈ lj ->
  ti ∈ BlockArrays bi -> tj ∈ BlockArrays bj ->
  ArrayName ti = ArrayName tj ->
  ArrayCentering ti = ArrayCentering tj ->
  ArrayType ti <> ArrayType tj \/ ArrayComponents ti <> ArrayComponents tj ->
  exists e : MergeError,
    Merge md locals = MergeFailure e /\
    GetMetadata md locals = replicate (length locals) (MergeFailure e) /\
    forall (rank : nat) (md' : MeshMetadata),
      GetMetadata md locals !! rank <> Some (Merged md').
Proof.
  intros Hi Hj Hbi Hbj Hti Htj Hname Hcent Hdiff.
  destruct (Merge md locals) as [md'|e] eqn:E.
  - exfalso.
    pose proof (Merge_records _ _ _ _ _ _ _ E Hi Hbi Hti) as Ri.
    pose proof (Merge_records _ _ _ _ _ _ _ E Hj Hbj Htj) as Rj.
    unfold records in Ri, Rj. rewrite Hname, Hcent, Rj in Ri.
    injection Ri as Hk Hc. destruct Hdiff; congruence.
  - exists e. split; [done|].
    rewrite GetMetadata_replicate, E. split; [done|].
    intros rank md' H. apply lookup_replicate in H as [H _]. discriminate.
Qed.

Lemma GetMetadata_array_mismatch_witness :
  exists e : MergeError,
    Merge example_metadata example_locals = MergeFailure e /\
    GetMetadata example_metadata example_locals
    = replicate 2 (MergeFailure e) /\
    forall (rank : nat) (md' : MeshMetadata),
      GetMetadata example_metadata example_locals !! rank
      <> Some (Merged md').
Proof.
  apply (GetMetadata_array_mismatch example_metadata example_locals 0 1
           [example_block 0 TT_double] [example_block 1 TT_float]
           (example_block 0 TT_double) (example_block 1 TT_float)
           (example_pressure TT_double) (example_pressure TT_float));
    try reflexivity; try (apply list_elem_of_here).
  left. discriminate.
Defined.

(** The failure of the sample merge is the mismatch on "pressure", met at
    rank 1; with the same kind on both ranks the merge succeeds. *)
Example Merge_example_failure :
  Merge example_metadata example_locals
  = MergeFailure (ArrayMismatch "pressure" cell 1).
Proof. vm_compute. reflexivity. Qed.

Example Merge_example_success :
  exists md' : MeshMetadata,
    Merge example_metadata
      [[example_block 0 TT_double]; [example_block 1 TT_double]]
    = Merged md' /\
    NumBlocks md' = 2%nat /\
    BlockOwner md' !! 1%nat = Some 1%nat /\
    Arrays md' !! ("pressure"%string, cell) = Some (TT_double, 1%nat).
Proof. eexists. split; [vm_compute; reflexivity|]. by vm_compute. Qed.

(** * Further properties of the code *)

(** ** [GetPointer]: what a caller can rely on *)

Lemma dynamic_cast_AOS_Some (T : VTK_TT) (da : handle) (buffer : pointer) :
  dynamic_cast_AOS T da = Some buffer <->
  exists a, da = Some a /\ Storage a = Interleaved buffer /\ ValueType a = T.
Proof.
  unfold dynamic_cast_AOS. split.
  - destruct da as [a|]; [|done]. destruct (Storage a) eqn:E; try done.
    case_decide; [|done]. intros [= <-]. eauto.
  - intros (a & -> & -> & <-). by rewrite decide_True.
Qed.

Lemma dynamic_cast_SOA_Some (T : VTK_TT) (da : handle)
    (buffers : list pointer) :
  dynamic_cast_SOA T da = Some buffers <->
  exists a, da = Some a /\ Storage a = Separated buffers /\ ValueType a = T.
Proof.
  unfold dynamic_cast_SOA. split.
  - destruct da as [a|]; [|done]. destruct (Storage a) eqn:E; try done.
    case_decide; [|done]. intros [= <-]. eauto.
  - intros (a & -> & -> & <-). by rewrite decide_True.
Qed.

Lemma bind_singleton_fmap {A B : Type} (g : A -> B) (l : list A) :
  (x ← l; [g x]) = g <$> l.
Proof. induction l as [|x l IH]; simpl; [done|]. by f_equal. Qed.

(** Element-major order: tuple after tuple, the components of each in
    turn. *)
Lemma element_major_flat {B : Type} (f : nat -> B) (c n s : nat) :
  (t ← seq s n; k ← seq 0 c; [f (t * c + k)%nat])
  = f <$> seq (s * c) (n * c).
Proof.
  revert s. induction n as [|n IH]; intros s; simpl; [done|].
  rewrite seq_app, fmap_app. f_equal.
  - rewrite (bind_singleton_fmap (fun k => f (s * c + k)%nat)).
    transitivity (f <$> (Nat.add (s * c) <$> seq 0 c)).
    + by rewrite <- list_fmap_compose.
    + by rewrite fmap_add_seq, Nat.add_0_r.
  - rewrite IH. do 2 f_equal. lia.
Qed.

Section GetPointerFurther.
Context {access : SeparatedAccess}.

(** X1: [GetPointer] returns for every handle and every element type, the
    null handle included: it never calls a member of a null object. It sends
    at most one message, and a message always comes with the null
    pointer. *)
Theorem GetPointer_always_returns (T : VTK_TT) (da : handle) :
  exists (p : pointer) (log : list string),
    GetPointer T da = Returns (p, log) /\
    (log = [] \/ (log = [InvalidArrayMessage (class_or_nullptr da)] /\
                  p = nullptr)).
Proof.
  unfold GetPointer.
  destruct (dynamic_cast_AOS T da) as [buffer|].
  { eexists _, _. split; [reflexivity|by left]. }
  destruct (dynamic_cast_SOA T da) as [buffers|].
  { eexists _, _. split; [reflexivity|by left]. }
  destruct da as [a|]; simpl; eexists _, _; (split; [reflexivity|by right]).
Qed.

(** X2: a non-null result means the array was accepted: it is an
    interleaved or a separated array of the element type asked for, the
    pointer is the one of its [GetPointer(0)], and nothing was sent to
    [SENSEI_ERROR]. *)
Theorem GetPointer_nonnull_accepted (T : VTK_TT) (da : handle) (p : pointer)
    (log : list string) :
  GetPointer T da = Returns (p, log) ->
  p <> nullptr ->
  log = [] /\
  exists a, da = Some a /\ ValueType a = T /\
    ((exists buffer, Storage a = Interleaved buffer /\
                     p = AOS_GetPointer buffer 0) \/
     (exists buffers, Storage a = Separated buffers /\
                      p = SOA_GetPointer buffers 0)).
Proof.
  unfold GetPointer. intros H Hp.
  destruct (dynamic_cast_AOS T da) as [buffer|] eqn:Ea.
  { injection H as <- <-. split; [done|].
    apply dynamic_cast_AOS_Some in Ea as (a & -> & Hs & Ht). eauto 10. }
  destruct (dynamic_cast_SOA T da) as [buffers|] eqn:Es.
  { injection H as <- <-. split; [done|].
    apply dynamic_cast_SOA_Some in Es as (a & -> & Hs & Ht). eauto 10. }
  destruct da as [a|]; simpl in H; injection H as <- <-; done.
Qed.

(** X3: the casts are to the array classes of the element type asked for,
    so an array of another element type is rejected whatever its layout:
    [GetPointer] reports it under its class name and returns null. *)
Theorem GetPointer_element_type_mismatch (T : VTK_TT) (a : vtkDataArray) :
  ValueType a <> T ->
  GetPointer T (Some a)
  = Returns (nullptr, [InvalidArrayMessage (ClassName a)]).
Proof.
  intros Hne. unfold GetPointer. simpl.
  destruct (Storage a); try reflexivity; by rewrite decide_False.
Qed.


(** X5: for an interleaved array of the element type asked for, with any
    number of components, the pointer [GetPointer] returns reads the whole
    logical contents of the array in element-major order. *)
Theorem GetPointer_AOS_reads_contents (h : heap) (T : VTK_TT)
    (a : vtkDataArray) (buffer : pointer) :
  dynamic_cast_AOS T (Some a) = Some buffer ->
  exists p : pointer,
    GetPointer T (Some a) = Returns (p, []) /\
    load_range h p (NumberOfTuples a * NumberOfComponents a) = Contents h a.
Proof.
  intros Ha. destruct (GetPointer_AOS _ _ _ Ha) as [Hp Hs].
  exists (AOS_GetPointer buffer 0). split; [exact Hp|].
  unfold Contents, GetTypedComponent, load_range, AOS_GetPointer.
  rewrite Hs.
  rewrite (element_major_flat (load h buffer) (NumberOfComponents a)
             (NumberOfTuples a) 0). simpl.
  apply list_fmap_ext. intros _ i _. apply load_advance_0.
Qed.
End GetPointerFurther.

Lemma GetPointer_nonnull_accepted_witness :
  [] = @nil string /\
  exists a, Some example_aos = Some a /\ ValueType a = TT_double /\
    ((exists buffer, Storage a = Interleaved buffer /\
                     Ptr 1 0 = AOS_GetPointer buffer 0) \/
     (exists buffers, Storage a = Separated buffers /\
                      Ptr 1 0 = @SOA_GetPointer example_access buffers 0)).
Proof.
  apply (@GetPointer_nonnull_accepted example_access TT_double
           (Some example_aos) (Ptr 1 0) []).
  - reflexivity.
  - discriminate.
Defined.

Lemma GetPointer_element_type_mismatch_witness :
  @GetPointer example_access TT_float (Some example_aos)
  = Returns (nullptr, ["Invalid vtkDataArray vtkDoubleArray"%string]).
Proof.
  apply (@GetPointer_element_type_mismatch example_access TT_float
           example_aos).
  discriminate.
Defined.


Lemma GetPointer_AOS_reads_contents_witness :
  exists p : pointer,
    @GetPointer example_access TT_double (Some example_aos3)
    = Returns (p, []) /\
    load_range example_heap_aos3 p 6 = Contents example_heap_aos3 example_aos3.
Proof.
  apply (@GetPointer_AOS_reads_contents example_access example_heap_aos3
           TT_double example_aos3 (Ptr 1 0)).
  reflexivity.
Defined.

(** ** The classification predicates together *)

Section KindProperties.
Context `{!VTKTypeCodes}.
Local Open Scope Z_scope.

(** X7: in terms of the two recorded kinds, a mesh is logically Cartesian
    exactly when its block type or its mesh type is one of structured grid,
    image data, uniform grid or rectilinear grid. *)
Theorem LogicallyCartesian_kinds (md : MeshMetadata) :
  LogicallyCartesian md = true <->
  BlockType md ∈ [VTK_STRUCTURED_GRID; VTK_IMAGE_DATA; VTK_UNIFORM_GRID;
                  VTK_RECTILINEAR_GRID] \/
  MeshType md ∈ [VTK_STRUCTURED_GRID; VTK_IMAGE_DATA; VTK_UNIFORM_GRID;
                 VTK_RECTILINEAR_GRID].
Proof.
  unfold LogicallyCartesian, Structured, UniformCartesian, StretchedCartesian.
  rewrite !orb_true_iff, !Z.eqb_eq, !elem_of_cons, !elem_of_nil. tauto.
Qed.

(** X8: the five kind predicates and [LogicallyCartesian] do not tell the
    block type from the mesh type: exchanging the two changes none of
    them. *)
Theorem kind_predicates_exchange (md : MeshMetadata) :
  Structured (exchange_kinds md) = Structured md /\
  Polydata (exchange_kinds md) = Polydata md /\
  Unstructured (exchange_kinds md) = Unstructured md /\
  StretchedCartesian (exchange_kinds md) = StretchedCartesian md /\
  UniformCartesian (exchange_kinds md) = UniformCartesian md /\
  LogicallyCartesian (exchange_kinds md) = LogicallyCartesian md.
Proof.
  assert (Structured (exchange_kinds md) = Structured md) as Hs
    by apply orb_comm.
  assert (StretchedCartesian (exchange_kinds md) = StretchedCartesian md)
    as Hr by apply orb_comm.
  assert (UniformCartesian (exchange_kinds md) = UniformCartesian md) as Hu.
  { unfold UniformCartesian. simpl.
    destruct (BlockType md =? VTK_IMAGE_DATA),
             (MeshType md =? VTK_IMAGE_DATA),
             (BlockType md =? VTK_UNIFORM_GRID),
             (MeshType md =? VTK_UNIFORM_GRID); reflexivity. }
  repeat split; try apply orb_comm; try done.
  unfold LogicallyCartesian. by rewrite Hs, Hr, Hu.
Qed.

(** X9: with pairwise distinct type codes, a mesh whose block type is its
    mesh type is of at most one kind: at most one of [AMR], [Structured],
    [Polydata], [Unstructured], [StretchedCartesian] and [UniformCartesian]
    holds of it. *)
Theorem homogeneous_mesh_one_kind (md : MeshMetadata) :
  distinct_codes ->
  BlockType md = MeshType md ->
  (kinds_held md <= 1)%nat.
Proof.
  intros Hd Hhom. unfold distinct_codes in Hd.
  rewrite !NoDup_cons, !not_elem_of_cons in Hd. destruct_and!.
  unfold kinds_held, AMR, Structured, Polydata, Unstructured,
    StretchedCartesian, UniformCartesian.
  rewrite Hhom. generalize (MeshType md). intros k.
  destruct (Z.eqb_spec k VTK_OVERLAPPING_AMR) as [->|?]; [settle_kind|].
  destruct (Z.eqb_spec k VTK_NON_OVERLAPPING_AMR) as [->|?]; [settle_kind|].
  destruct (Z.eqb_spec k VTK_STRUCTURED_GRID) as [->|?]; [settle_kind|].
  destruct (Z.eqb_spec k VTK_POLY_DATA) as [->|?]; [settle_kind|].
  destruct (Z.eqb_spec k VTK_UNSTRUCTURED_GRID) as [->|?]; [settle_kind|].
  destruct (Z.eqb_spec k VTK_RECTILINEAR_GRID) as [->|?]; [settle_kind|].
  destruct (Z.eqb_spec k VTK_IMAGE_DATA) as [->|?]; [settle_kind|].
  destruct (Z.eqb_spec k VTK_UNIFORM_GRID) as [->|?]; [settle_kind|].
  simpl. lia.
Qed.

(** X10: the kinds are not exclusive when block type and mesh type differ:
    an AMR mesh whose blocks are image data or uniform grids is at once
    [AMR], [UniformCartesian] and [LogicallyCartesian]. *)
Theorem AMR_of_uniform_blocks (md : MeshMetadata) :
  MeshType md = VTK_OVERLAPPING_AMR \/
  MeshType md = VTK_NON_OVERLAPPING_AMR ->
  BlockType md = VTK_IMAGE_DATA \/ BlockType md = VTK_UNIFORM_GRID ->
  AMR md = true /\ UniformCartesian md = true /\
  LogicallyCartesian md = true /\ (2 <= kinds_held md)%nat.
Proof.
  intros Hm Hb.
  assert (AMR md = true) as Ha.
  { unfold AMR. rewrite orb_true_iff, !Z.eqb_eq. exact Hm. }
  assert (UniformCartesian md = true) as Hu.
  { unfold UniformCartesian. rewrite !orb_true_iff, !Z.eqb_eq. tauto. }
  repeat split; try done.
  - unfold LogicallyCartesian. rewrite Hu. apply orb_true_iff.
    left. apply orb_true_r.
  - unfold kinds_held. rewrite Ha, Hu. simpl. lia.
Qed.

(** X11: with pairwise distinct type codes, a logically Cartesian mesh whose
    block type is its mesh type is neither polygonal, nor unstructured, nor
    AMR. *)
Theorem homogeneous_LogicallyCartesian_excludes (md : MeshMetadata) :
  distinct_codes ->
  BlockType md = MeshType md ->
  LogicallyCartesian md = true ->
  Polydata md = false /\ Unstructured md = false /\ AMR md = false.
Proof.
  intros Hd Hhom. unfold distinct_codes in Hd.
  rewrite !NoDup_cons, !not_elem_of_cons in Hd. destruct_and!.
  unfold LogicallyCartesian, AMR, Structured, Polydata, Unstructured,
    StretchedCartesian, UniformCartesian.
  rewrite Hhom, !orb_diag, !orb_true_iff, !Z.eqb_eq.
  intros [[->| [[->| ->]| ->]]| ->];
    rewrite ?orb_false_iff, !Z.eqb_neq; repeat split; congruence.
Qed.
End KindProperties.

Lemma homogeneous_mesh_one_kind_witness :
  (@kinds_held example_codes example_structured <= 1)%nat.
Proof.
  apply (@homogeneous_mesh_one_kind example_codes example_structured).
  - unfold distinct_codes. simpl. apply (bool_decide_unpack _).
    vm_compute. reflexivity.
  - reflexivity.
Defined.

Lemma AMR_of_uniform_blocks_witness :
  @AMR example_codes example_amr_uniform = true /\
  @UniformCartesian example_codes example_amr_uniform = true /\
  @LogicallyCartesian example_codes example_amr_uniform = true /\
  (2 <= @kinds_held example_codes example_amr_uniform)%nat.
Proof.
  apply (@AMR_of_uniform_blocks example_codes example_amr_uniform).
  - left. reflexivity.
  - right. reflexivity.
Defined.

Lemma homogeneous_LogicallyCartesian_excludes_witness :
  @Polydata example_codes example_structured = false /\
  @Unstructured example_codes example_structured = false /\
  @AMR example_codes example_structured = false.
Proof.
  apply (@homogeneous_LogicallyCartesian_excludes example_codes
           example_structured).
  - unfold distinct_codes. simpl. apply (bool_decide_unpack _).
    vm_compute. reflexivity.
  - reflexivity.
  - reflexivity.
Defined.
